(** * JobName App: a label lookup service

    A shallow embedding of [jobname_app/main.py]: a Flask application that
    loads a JSON document into the module global [LABELS_BY_INPUT] when the
    module is imported, and registers two GET routes, [/] and [/predict/].

    The file is organised as the program is:
    - [Py]: the Python values that [json.load] produces, the two
      operators the handler applies to them ([in] and subscription) and
      their nesting depth;
    - [Werkzeug]: the query arguments of a request ([request.args]);
    - [Runtime]: how deeply nested a value the JSON encoder can still
      serialise when a view function calls it;
    - the module itself: the global, [jsonify], the two view functions,
      start-up and the serving loop;
    - the properties of the service. *)

From Stdlib Require Import ZArith String Ascii Floats.SpecFloat.
From stdpp Require Import base option list strings gmap fin_maps.

Set Warnings "-register-all".
Open Scope string_scope.
Open Scope Z_scope.

(** ** Python values and exceptions *)

Module Py.

(** What [json.load] returns: JSON null, booleans, integers, floats,
    strings, arrays and objects become [None], [bool], [int], [float],
    [str], [list] and [dict]; the keys of a decoded object are always
    [str].  A [str] is kept as its UTF-8 bytes. *)
Inductive pyval : Type :=
| PNone
| PBool (b : bool)
| PInt (n : Z)
| PFloat (x : spec_float)
| PStr (s : string)
| PList (items : list pyval)
| PDict (entries : gmap string pyval).

(** How many containers are nested inside one another in a value: a
    scalar has depth 0, a [list] or [dict] one more than the deepest of
    its members (an empty one has depth 1).  This is the number of
    recursive calls the JSON encoder makes on the value. *)
Fixpoint depth (v : pyval) : nat :=
  match v with
  | PList items => S (foldr (λ item, Nat.max (depth item)) 0%nat items)
  | PDict entries =>
      S (map_fold (λ _ value, Nat.max (depth value)) 0%nat entries)
  | PNone | PBool _ | PInt _ | PFloat _ | PStr _ => 0%nat
  end.

(** The exceptions that the program can run into: those of
    [json.load(open(...))] at start-up, those of the two operators, and
    the [RecursionError] of the JSON decoder and encoder on values that
    are nested too deeply. *)
Inductive exn : Type :=
| FileNotFoundError
| PermissionError
| IsADirectoryError
| UnicodeDecodeError
| JSONDecodeError
| ValueError
| RecursionError
| KeyError
| TypeError.

(** An evaluation either returns a value or raises. *)
Inductive outcome (A : Type) : Type :=
| Return (a : A)
| Raise (e : exn).
Arguments Return {A} a.
Arguments Raise {A} e.

(** The handler only ever uses two kinds of values as a key: the result
    of [request.args.get], which is [None] or a [str], and the literal
    ['Label'].  A key is therefore an [option string], [None] standing
    for Python's [None]. *)
Definition pykey : Type := option string.

(** [x == y] for a key [x] and a decoded value [y]: [None] equals only
    [None], a [str] equals only the same [str]. *)
Definition py_eq (x : pykey) (y : pyval) : bool :=
  match x, y with
  | None, PNone => true
  | Some s, PStr t => bool_decide (s = t)
  | _, _ => false
  end.

(** [sub in s] on two [str]: [sub] occurs in [s] as a contiguous run. *)
Fixpoint str_contains (sub s : string) : bool :=
  String.prefix sub s ||
  match s with
  | EmptyString => false
  | String _ rest => str_contains sub rest
  end.

(** [x in container].  A [dict] tests its keys, a [list] compares with
    every element, a [str] searches for a substring and rejects a left
    operand that is not a [str]; the other values are not iterable. *)
Definition py_contains (x : pykey) (container : pyval) : outcome bool :=
  match container with
  | PDict entries =>
      match x with
      | Some s => Return (bool_decide (is_Some (entries !! s)))
      | None => Return false
      end
  | PList items => Return (existsb (py_eq x) items)
  | PStr s =>
      match x with
      | Some sub => Return (str_contains sub s)
      | None => Raise TypeError
      end
  | PNone | PBool _ | PInt _ | PFloat _ => Raise TypeError
  end.

(** [obj[key]].  A [dict] returns the stored value or raises [KeyError];
    a [list] and a [str] accept only integer indices, and the other
    values are not subscriptable: [TypeError]. *)
Definition py_getitem (obj : pyval) (key : pykey) : outcome pyval :=
  match obj with
  | PDict entries =>
      match key with
      | Some s =>
          match entries !! s with
          | Some v => Return v
          | None => Raise KeyError
          end
      | None => Raise KeyError
      end
  | PList _ | PStr _ => Raise TypeError
  | PNone | PBool _ | PInt _ | PFloat _ => Raise TypeError
  end.


End Py.
Import Py.

(** ** Query arguments *)

Module Werkzeug.

(** [request.args] is a [MultiDict]: the decoded (name, value) pairs of
    the query string, in the order they were sent. *)
Definition MultiDict : Type := list (string * string).

(** [MultiDict.get(name)]: the first value sent under [name], or [None]
    when there is none. *)
Fixpoint get (name : string) (args : MultiDict) : pykey :=
  match args with
  | [] => None
  | (n, v) :: rest => if bool_decide (n = name) then Some v else get name rest
  end.

(** The decoding of a raw (ASCII) query string into [request.args]:
    fields are separated by [&], empty fields are skipped, a field is cut
    at its first [=] (a field without [=] has the empty value).  In a
    name or a value [+] stands for a space and [%XY] for the byte with
    hexadecimal code [XY]; the bytes obtained are read as UTF-8, and
    those that do not form a well-formed UTF-8 sequence are put back as
    [%XY] escapes. *)
Fixpoint split_amp (field s : string) : list string :=
  match s with
  | EmptyString => [field]
  | String c rest =>
      if Ascii.eqb c "&" then field :: split_amp "" rest
      else split_amp (field ++ String c "") rest
  end.

Fixpoint partition_eq (name s : string) : string * string :=
  match s with
  | EmptyString => (name, "")
  | String c rest =>
      if Ascii.eqb c "=" then (name, rest)
      else partition_eq (name ++ String c "") rest
  end.

Fixpoint plus_to_space (s : string) : string :=
  match s with
  | EmptyString => EmptyString
  | String c rest =>
      String (if Ascii.eqb c "+" then " "%char else c) (plus_to_space rest)
  end.

Definition hex_value (c : ascii) : option N :=
  let n := N_of_ascii c in
  if (48 <=? n)%N && (n <=? 57)%N then Some (n - 48)%N
  else if (65 <=? n)%N && (n <=? 70)%N then Some (n - 55)%N
  else if (97 <=? n)%N && (n <=? 102)%N then Some (n - 87)%N
  else None.

Fixpoint unquote_to_bytes (s : string) : string :=
  match s with
  | EmptyString => EmptyString
  | String c rest =>
      if Ascii.eqb c "%" then
        match rest with
        | String a (String b rest') =>
            match hex_value a, hex_value b with
            | Some h, Some l =>
                String (ascii_of_N (16 * h + l)) (unquote_to_bytes rest')
            | _, _ => String c (unquote_to_bytes rest)
            end
        | _ => String c (unquote_to_bytes rest)
        end
      else String c (unquote_to_bytes rest)
  end.

(** Writing a byte back as an escape, with upper-case digits. *)
Definition hex_digit (n : N) : ascii :=
  if (n <? 10)%N then ascii_of_N (48 + n) else ascii_of_N (55 + n).

Definition quote_byte (c : ascii) : string :=
  let n := N_of_ascii c in
  String "%" (String (hex_digit (n / 16)) (String (hex_digit (n mod 16)) "")).

Fixpoint quote_bytes (s : string) : string :=
  match s with
  | EmptyString => EmptyString
  | String c rest => quote_byte c ++ quote_bytes rest
  end.

(** The UTF-8 reader: either between two characters, or inside a
    multi-byte sequence of which [seen] has been read, [more] bytes are
    still due and the next one has to lie between [lo] and [hi]. *)
Inductive utf8_state : Type :=
| Idle
| Partial (seen : string) (more : nat) (lo hi : N).

Definition between (lo n hi : N) : bool := ((lo <=? n) && (n <=? hi))%N.

Definition utf8_lead (c : ascii) : string * utf8_state :=
  let n := N_of_ascii c in
  if (n <? 128)%N then (String c "", Idle)
  else if between 194 n 223 then ("", Partial (String c "") 1 128 191)
  else if (n =? 224)%N then ("", Partial (String c "") 2 160 191)
  else if between 225 n 236 || between 238 n 239
       then ("", Partial (String c "") 2 128 191)
  else if (n =? 237)%N then ("", Partial (String c "") 2 128 159)
  else if (n =? 240)%N then ("", Partial (String c "") 3 144 191)
  else if between 241 n 243 then ("", Partial (String c "") 3 128 191)
  else if (n =? 244)%N then ("", Partial (String c "") 3 128 143)
  else (quote_byte c, Idle).

Definition utf8_step (st : utf8_state) (c : ascii) : string * utf8_state :=
  match st with
  | Idle => utf8_lead c
  | Partial seen more lo hi =>
      if between lo (N_of_ascii c) hi then
        match more with
        | S (S m) => ("", Partial (seen ++ String c "") (S m) 128 191)
        | _ => (seen ++ String c "", Idle)
        end
      else
        let (out, st') := utf8_lead c in (quote_bytes seen ++ out, st')
  end.

Fixpoint utf8_requote (st : utf8_state) (s : string) : string :=
  match s with
  | EmptyString =>
      match st with
      | Idle => EmptyString
      | Partial seen _ _ _ => quote_bytes seen
      end
  | String c rest =>
      let (out, st') := utf8_step st c in out ++ utf8_requote st' rest
  end.

Definition unquote_plus (s : string) : string :=
  utf8_requote Idle (unquote_to_bytes (plus_to_space s)).

Definition url_decode (query_string : string) : MultiDict :=
  map (fun field =>
         let (name, value) := partition_eq "" field in
         (unquote_plus name, unquote_plus value))
      (filter (fun field => field ≠ "") (split_amp "" query_string)).

End Werkzeug.

(** ** The interpreter at the time of a request *)

(** The JSON encoder recurses once for every container that is nested in
    the value it serialises, and the interpreter stops it with a
    [RecursionError] when its recursion limit is reached.  How many
    nested containers the encoder can still enter when a view function
    calls [jsonify] depends on the recursion limit (1000 unless it is
    changed, and [main.py] does not change it) and on the frames that
    the server has already stacked below the view function.
    [dumps_depth] is that number.  It is at least 2: an interpreter that
    ran the server up to the view function serialises an object that
    holds a list of strings. *)
Class Runtime : Type := {
  dumps_depth : nat;
  dumps_depth_flat : (2 ≤ dumps_depth)%nat
}.

(** The default recursion limit with some thirty frames in use. *)
Definition cpython_default : Runtime :=
  {| dumps_depth := 961; dumps_depth_flat := ltac:(lia) |}.

(** ** The module [main] *)

(** The one module-level name that is assigned from data:
    [LABELS_BY_INPUT = json.load(open('labels_by_input.json'))]. *)
Record globals : Type := Globals { LABELS_BY_INPUT : pyval }.

(** A view function runs against the module globals: it returns or
    raises, and leaves the globals in some state. *)
Definition view (A : Type) : Type := globals → outcome A * globals.

Definition view_ret {A} (a : A) : view A := λ g, (Return a, g).

Definition view_bind {A B} (m : view A) (k : A → view B) : view B :=
  λ g, match m g with
       | (Return a, g') => k a g'
       | (Raise e, g') => (Raise e, g')
       end.

(** Reading a global name. *)
Definition read_global {A} (name : globals → A) : view A :=
  λ g, (Return (name g), g).

(** Evaluating an expression that has no effect on the globals. *)
Definition eval {A} (o : outcome A) : view A := λ g, (o, g).

Notation "x <~ m ;; k" := (view_bind m (λ x, k))
  (at level 100, m at next level, right associativity).

(** The body of a JSON response: the serialisation of [payload]. *)
Inductive body : Type := json_response (payload : pyval).

(** What a view function hands back to Flask: a body and a status. *)
Definition response : Type := body * Z.

(** The two routes that the module registers, both for GET. *)
Inductive request : Type :=
| GET_home (args : Werkzeug.MultiDict)       (* GET /          *)
| GET_predict (args : Werkzeug.MultiDict).   (* GET /predict/  *)

(** The data file as [json.load(open(...))] finds it: not there, not
    readable, a directory, bytes that are not text in the encoding of
    [open], not a JSON text, a JSON text
    with a number of more digits than [int] converts, a JSON text nested
    beyond the recursion limit, or a JSON text that decodes to a value. *)
Inductive data_source : Type :=
| Missing
| Unreadable
| IsDirectory
| NotText
| NotJson
| NumberTooLong
| TooDeep
| Document (v : pyval).

Definition json_load_open (src : data_source) : outcome pyval :=
  match src with
  | Missing => Raise FileNotFoundError
  | Unreadable => Raise PermissionError
  | IsDirectory => Raise IsADirectoryError
  | NotText => Raise UnicodeDecodeError
  | NotJson => Raise JSONDecodeError
  | NumberTooLong => Raise ValueError
  | TooDeep => Raise RecursionError
  | Document v => Return v
  end.

(** Running the module: the assignment to [LABELS_BY_INPUT] is executed
    before [app.run]; an exception there ends the process. *)
Inductive process : Type :=
| Exited (e : exn)
| Serving (g : globals).

Definition start (src : data_source) : process :=
  match json_load_open src with
  | Return v => Serving (Globals v)
  | Raise e => Exited e
  end.

(** *** Vocabulary of the properties *)

(** The ['Label'] field of a record, when the record is an object that
    has one. *)
Definition label_of (record : pyval) : option pyval :=
  match record with
  | PDict fields => fields !! "Label"
  | _ => None
  end.

(** A decoded document has the shape the service expects when it is an
    object all of whose values are records with a ['Label'] field. *)
Definition well_shaped (v : pyval) : Prop :=
  ∃ d : gmap string pyval,
    v = PDict d ∧ ∀ k record, d !! k = Some record → is_Some (label_of record).

Definition well_shaped_source (src : data_source) : Prop :=
  ∃ v, src = Document v ∧ well_shaped v.

(** The table of the concrete scenario. *)
Definition shoes_table : gmap string pyval :=
  {[ "red shoes" := PDict {[ "Label" := PList [PStr "footwear"; PStr "red"] ]} ]}.

(** A document that decodes but has not the expected shape: the record
    has no ['Label'] field. *)
Definition tagged_document : data_source :=
  Document (PDict {[ "red shoes" := PDict {[ "Tag" := PStr "footwear" ]} ]}).



(** The Python value that a key stands for. *)
Definition key_value (x : pykey) : pyval :=
  match x with
  | None => PNone
  | Some s => PStr s
  end.

(** The decoded values that are neither a container nor a string. *)
Definition is_scalar (v : pyval) : Prop :=
  match v with
  | PNone | PBool _ | PInt _ | PFloat _ => True
  | PStr _ | PList _ | PDict _ => False
  end.



(** Facts about [depth] that do not depend on the interpreter. *)
Lemma depth_singleton (k : string) (v : pyval) :
  depth (PDict {[ k := v ]}) = S (depth v).
Proof. simpl. rewrite map_fold_singleton. lia. Qed.


(** *** The view functions *)

Section Main.

Context {rt : Runtime}.

(** [jsonify(payload)] serialises its argument at once, inside the view
    function: it returns the body of the response, or raises
    [RecursionError] when the payload is nested more deeply than the
    encoder can go. *)
Definition jsonify (payload : pyval) : outcome body :=
  if Nat.leb (depth payload) dumps_depth then Return (json_response payload)
  else Raise RecursionError.

(** [def home()] *)
Definition home : view response :=
  content <~ eval (jsonify (PDict {[ "message" := PStr "JobName App is live" ]})) ;;
  view_ret (content, 200).

(** [def predict()], with [request.args] as its parameter. *)
Definition predict (request_args : Werkzeug.MultiDict) : view response :=
  let user_input := Werkzeug.get "input" request_args in
  table <~ read_global LABELS_BY_INPUT ;;
  found <~ eval (py_contains user_input table) ;;
  if (found : bool) then
    table <~ read_global LABELS_BY_INPUT ;;
    record <~ eval (py_getitem table user_input) ;;
    label <~ eval (py_getitem record (Some "Label")) ;;
    content <~ eval (jsonify (PDict {[ "labels" := label ]})) ;;
    view_ret (content, 200)
  else
    content <~ eval (jsonify (PDict {[ "message" :=
                        PStr "No recommendations for user input" ]})) ;;
    view_ret (content, 404).

Definition dispatch (req : request) : view response :=
  match req with
  | GET_home _ => home
  | GET_predict args => predict args
  end.

(** Serving a sequence of requests, one after the other, from given
    globals: the outcomes in order, and the globals at the end. *)
Fixpoint serve (reqs : list request) (g : globals)
  : list (outcome response) * globals :=
  match reqs with
  | [] => ([], g)
  | req :: rest =>
      let (o, g') := dispatch req g in
      let (os, g'') := serve rest g' in
      (o :: os, g'')
  end.

(** What the clients of a process get back: a process that has exited
    answers nothing. *)
Definition answers (p : process) (reqs : list request)
  : list (outcome response) :=
  match p with
  | Exited _ => []
  | Serving g => fst (serve reqs g)
  end.

(** A process that has failed fast: it exited at start-up and answers no
    request. *)
Definition failed_fast (p : process) : Prop :=
  (∃ e, p = Exited e) ∧ ∀ reqs, answers p reqs = [].


(** ** Properties *)

(** *** The handlers, equation by equation *)

(** The two fixed messages are always serialised. *)
Lemma jsonify_message (s : string) :
  jsonify (PDict {[ "message" := PStr s ]})
  = Return (json_response (PDict {[ "message" := PStr s ]})).
Proof.
  unfold jsonify. rewrite depth_singleton. simpl.
  pose proof dumps_depth_flat as Hflat.
  destruct dumps_depth as [|limit]; [lia|reflexivity].
Qed.

(** A label is serialised when, wrapped in the response object, it is
    within the limit of the encoder. *)
Lemma jsonify_labels (v : pyval) :
  jsonify (PDict {[ "labels" := v ]})
  = if Nat.ltb (depth v) dumps_depth
    then Return (json_response (PDict {[ "labels" := v ]}))
    else Raise RecursionError.
Proof. unfold jsonify. rewrite depth_singleton. reflexivity. Qed.

Lemma home_live (g : globals) :
  home g
  = (Return (json_response (PDict {[ "message" := PStr "JobName App is live" ]}),
             200), g).
Proof.
  unfold home, view_bind, eval, view_ret. rewrite jsonify_message. reflexivity.
Qed.

(** [predict], as the evaluations it performs in sequence, on any value
    of the table. *)
Lemma predict_steps (args : Werkzeug.MultiDict) (table : pyval) :
  predict args (Globals table) =
  (match py_contains (Werkzeug.get "input" args) table with
   | Return true =>
       match py_getitem table (Werkzeug.get "input" args) with
       | Return record =>
           match py_getitem record (Some "Label") with
           | Return label =>
               if Nat.ltb (depth label) dumps_depth
               then Return (json_response (PDict {[ "labels" := label ]}), 200)
               else Raise RecursionError
           | Raise e => Raise e
           end
       | Raise e => Raise e
       end
   | Return false =>
       Return (json_response (PDict {[ "message" :=
                 PStr "No recommendations for user input" ]}), 404)
   | Raise e => Raise e
   end, Globals table).
Proof.
  unfold predict, view_bind, read_global, eval, view_ret; simpl.
  destruct (py_contains (Werkzeug.get "input" args) table) as [[|]|e];
    simpl; [| rewrite jsonify_message; reflexivity | reflexivity].
  destruct (py_getitem table (Werkzeug.get "input" args)) as [record|e];
    simpl; [|reflexivity].
  destruct (py_getitem record (Some "Label")) as [label|e]; [|reflexivity].
  rewrite jsonify_labels. destruct (Nat.ltb (depth label) dumps_depth); reflexivity.
Qed.

Lemma getitem_label (record : pyval) :
  py_getitem record (Some "Label") =
  match label_of record with
  | Some v => Return v
  | None => Raise (match record with PDict _ => KeyError | _ => TypeError end)
  end.
Proof. destruct record; reflexivity. Qed.

(** On a table that is a [dict], [predict] is a lookup of the first
    [input] argument followed by a lookup of ['Label'] in the record and
    the serialisation of the label. *)
Lemma predict_on_dict (d : gmap string pyval) (args : Werkzeug.MultiDict) :
  predict args (Globals (PDict d)) =
  (match Werkzeug.get "input" args with
   | Some s =>
       match d !! s with
       | Some record =>
           match py_getitem record (Some "Label") with
           | Return label =>
               if Nat.ltb (depth label) dumps_depth
               then Return (json_response (PDict {[ "labels" := label ]}), 200)
               else Raise RecursionError
           | Raise e => Raise e
           end
       | None =>
           Return (json_response (PDict {[ "message" :=
                     PStr "No recommendations for user input" ]}), 404)
       end
   | None =>
       Return (json_response (PDict {[ "message" :=
                 PStr "No recommendations for user input" ]}), 404)
   end, Globals (PDict d)).
Proof.
  rewrite predict_steps. simpl.
  destruct (Werkzeug.get "input" args) as [s|]; simpl; [|reflexivity].
  destruct (d !! s) as [record|] eqn:Hs; simpl; rewrite ?Hs; reflexivity.
Qed.

Lemma get_single (s : string) : Werkzeug.get "input" [("input", s)] = Some s.
Proof. reflexivity. Qed.

Lemma ltb_depth (v : pyval) :
  (depth v < dumps_depth)%nat → Nat.ltb (depth v) dumps_depth = true.
Proof. intros Hv. apply Nat.ltb_lt. exact Hv. Qed.

(** No view function assigns to the globals, whatever the table is. *)
Lemma dispatch_globals (req : request) (g : globals) :
  snd (dispatch req g) = g.
Proof.
  destruct req as [args|args]; simpl; [rewrite home_live; reflexivity|].
  destruct g as [table]. rewrite predict_steps. reflexivity.
Qed.

Lemma serve_globals (reqs : list request) (g : globals) :
  snd (serve reqs g) = g.
Proof.
  induction reqs as [|req rest IH]; simpl; [reflexivity|].
  pose proof (dispatch_globals req g) as Hg.
  destruct (dispatch req g) as [o g']; simpl in Hg; subst g'.
  destruct (serve rest g) as [os g'']; simpl in *; assumption.
Qed.

(** Every request of a sequence is answered as if it were the only one. *)
Lemma serve_outcomes (reqs : list request) (g : globals) :
  fst (serve reqs g) = map (λ req, fst (dispatch req g)) reqs.
Proof.
  induction reqs as [|req rest IH]; simpl; [reflexivity|].
  pose proof (dispatch_globals req g) as Hg.
  destruct (dispatch req g) as [o g']; simpl in Hg; subst g'.
  destruct (serve rest g) as [os g'']; simpl in *; congruence.
Qed.

(** *** The predict endpoint *)


(** C2. Whenever the [input] argument of [GET /predict/] is not a key of
    the lookup table, the answer is status 404 with the JSON object
    [{"message": "No recommendations for user input"}].  The hypothesis
    covers a string that is not a key (the empty string among them) and,
    vacuously, a request that carries no [input] argument at all: the
    omitted argument takes the same branch as any other miss. *)
Theorem predict_miss_is_404
    (d : gmap string pyval) (args : Werkzeug.MultiDict) :
  (∀ s, Werkzeug.get "input" args = Some s → d !! s = None) →
  dispatch (GET_predict args) (Globals (PDict d)) =
  (Return (json_response (PDict {[ "message" :=
             PStr "No recommendations for user input" ]}), 404),
   Globals (PDict d)).
Proof.
  intros Hmiss. simpl. rewrite predict_on_dict.
  destruct (Werkzeug.get "input" args) as [s|]; [|reflexivity].
  rewrite (Hmiss s eq_refl). reflexivity.
Qed.

(** C4. The lookup is by exact, case-sensitive string equality: the
    request [GET /predict/?input=s] takes the miss branch (the 404 answer)
    exactly when [s] is not one of the keys of the table, and so it is a
    hit exactly when [s] is literally a key.  Nothing is done to [s]
    before the lookup. *)
Theorem predict_hit_iff_exact_key (d : gmap string pyval) (s : string) :
  fst (dispatch (GET_predict [("input", s)]) (Globals (PDict d)))
    ≠ Return (json_response (PDict {[ "message" :=
                PStr "No recommendations for user input" ]}), 404)
  ↔ ∃ k, k ∈ dom d ∧ s = k.
Proof.
  simpl. rewrite predict_on_dict, get_single. simpl.
  split.
  - intros Hhit. exists s. split; [|reflexivity].
    apply elem_of_dom. destruct (d !! s) as [record|]; [eauto|].
    exfalso. apply Hhit. reflexivity.
  - intros (k & Hk & ->). apply elem_of_dom in Hk as [record Hk].
    rewrite Hk. destruct (py_getitem record (Some "Label")) as [label|e];
      [|discriminate].
    destruct (Nat.ltb (depth label) dumps_depth); discriminate.
Qed.

(** C8. With the table [{"red shoes": {"Label": ["footwear", "red"]}}],
    [GET /predict/?input=red%20shoes] returns 200 with
    [{"labels": ["footwear", "red"]}], and
    [GET /predict/?input=blue%20shoes] returns 404 with
    [{"message": "No recommendations for user input"}]. *)
Theorem red_shoes_scenario :
  dispatch (GET_predict (Werkzeug.url_decode "input=red%20shoes"))
           (Globals (PDict shoes_table))
  = (Return (json_response (PDict {[ "labels" :=
               PList [PStr "footwear"; PStr "red"] ]}), 200),
     Globals (PDict shoes_table))
  ∧
  dispatch (GET_predict (Werkzeug.url_decode "input=blue%20shoes"))
           (Globals (PDict shoes_table))
  = (Return (json_response (PDict {[ "message" :=
               PStr "No recommendations for user input" ]}), 404),
     Globals (PDict shoes_table)).
Proof.
  change (Werkzeug.url_decode "input=red%20shoes") with [("input", "red shoes")].
  change (Werkzeug.url_decode "input=blue%20shoes") with [("input", "blue shoes")].
  simpl. rewrite !predict_on_dict, !get_single. split; [|reflexivity].
  assert (Hrecord : shoes_table !! "red shoes"
            = Some (PDict {[ "Label" := PList [PStr "footwear"; PStr "red"] ]}))
    by reflexivity.
  assert (Hlabel : py_getitem
            (PDict {[ "Label" := PList [PStr "footwear"; PStr "red"] ]})
            (Some "Label") = Return (PList [PStr "footwear"; PStr "red"]))
    by reflexivity.
  rewrite Hrecord, Hlabel, ltb_depth; [reflexivity|].
  pose proof dumps_depth_flat as Hflat.
  change (depth (PList [PStr "footwear"; PStr "red"])) with 1%nat. lia.
Qed.



(** *** The health endpoint *)

(** C5. [GET /] returns status 200 with the JSON object
    [{"message": "JobName App is live"}] for every value of the table (an
    empty table, or a value that is no table at all) and every query; it
    never raises and leaves the globals as they were. *)
Theorem home_always_live (table : pyval) (args : Werkzeug.MultiDict) :
  dispatch (GET_home args) (Globals table) =
  (Return (json_response (PDict {[ "message" := PStr "JobName App is live" ]}), 200),
   Globals table).
Proof. simpl. apply home_live. Qed.

(** *** The table over the life of the process *)

(** C6. Serving any sequence of requests leaves the globals, and so the
    lookup table, exactly as they were loaded at start-up. *)
Theorem table_is_read_only (reqs : list request) (table : pyval) :
  LABELS_BY_INPUT (snd (serve reqs (Globals table))) = table.
Proof. rewrite serve_globals. reflexivity. Qed.

(** C7. The same request issued twice against the same loaded table gets
    the same outcome both times (same status, same body, or the same
    exception), whether the two are consecutive or other requests are
    served in between. *)
Theorem repeated_request_same_answer
    (g : globals) (req : request) (between : list request) :
  ∃ o os, fst (serve (req :: between ++ [req]) g) = o :: os ++ [o].
Proof.
  exists (fst (dispatch req g)), (map (λ r, fst (dispatch r g)) between).
  rewrite serve_outcomes. simpl. rewrite map_app. reflexivity.
Qed.

(** *** Start-up *)

(** C3, as the program has it.  When the data file is missing, cannot be
    read, or is not a JSON text that [json.load] decodes, the process
    ends at start-up with the exception of [json.load(open(...))] and
    answers no request.  Every JSON text that decodes is accepted,
    whatever its shape, and its value becomes the table that is served. *)
Theorem start_fails_fast_without_a_document (src : data_source) :
  match src with
  | Document v =>
      start src = Serving (Globals v) ∧
      ∀ reqs, answers (start src) reqs = fst (serve reqs (Globals v))
  | Missing | Unreadable | IsDirectory | NotText
  | NotJson | NumberTooLong | TooDeep =>
      failed_fast (start src) ∧ start src = Exited
        match src with
        | Missing => FileNotFoundError
        | Unreadable => PermissionError
        | IsDirectory => IsADirectoryError
        | NotText => UnicodeDecodeError
        | NumberTooLong => ValueError
        | TooDeep => RecursionError
        | _ => JSONDecodeError
        end
  end.
Proof.
  destruct src; simpl; unfold failed_fast; simpl; eauto.
Qed.

(** Keys that differ from the input only by case or by surrounding
    blanks, or that merely contain it, do not match. *)
Example predict_no_normalisation :
  let g := Globals (PDict {[ "Red Shoes" := PDict {[ "Label" := PStr "footwear" ]} ]}) in
  let miss := Return (json_response (PDict {[ "message" :=
                PStr "No recommendations for user input" ]}), 404) in
  fst (dispatch (GET_predict [("input", "Red Shoes")]) g)
    = Return (json_response (PDict {[ "labels" := PStr "footwear" ]}), 200) ∧
  fst (dispatch (GET_predict [("input", "red shoes")]) g) = miss ∧
  fst (dispatch (GET_predict [("input", " Red Shoes")]) g) = miss ∧
  fst (dispatch (GET_predict [("input", "Red Shoes ")]) g) = miss ∧
  fst (dispatch (GET_predict [("input", "Red")]) g) = miss.
Proof.
  simpl. rewrite !predict_on_dict, !get_single.
  split; [|repeat split].
  rewrite lookup_singleton_eq, getitem_label. simpl.
  rewrite lookup_singleton_eq, ltb_depth; [reflexivity|].
  pose proof dumps_depth_flat as Hflat. simpl. lia.
Qed.

(** ** Further properties of the handlers *)

(** *** The handler on an arbitrary table *)

Lemma getitem_not_dict (table : pyval) (x : pykey) :
  (∀ d, table ≠ PDict d) → py_getitem table x = Raise TypeError.
Proof. destruct table; intros Hd; try reflexivity. destruct (Hd entries eq_refl). Qed.

(** A status 200 from [predict] is always a genuine hit: the table is an
    object, the request carries an [input] that is one of its keys, the
    record under that key is an object with a ['Label'] field, the body
    is that label, and the label is nested less deeply than the limit of
    the encoder. *)
Theorem predict_200_is_a_stored_label
    (table : pyval) (args : Werkzeug.MultiDict) (b : body) :
  fst (dispatch (GET_predict args) (Globals table)) = Return (b, 200) →
  ∃ (d : gmap string pyval) (s : string) (fields : gmap string pyval) (v : pyval),
    table = PDict d ∧ Werkzeug.get "input" args = Some s ∧
    d !! s = Some (PDict fields) ∧ fields !! "Label" = Some v ∧
    b = json_response (PDict {[ "labels" := v ]}) ∧
    (depth v < dumps_depth)%nat.
Proof.
  simpl. rewrite predict_steps. simpl.
  destruct table as [|b'|n|x|t|items|d];
    try (destruct (Werkzeug.get "input" args); simpl; discriminate).
  - destruct (Werkzeug.get "input" args) as [s|]; simpl; [|discriminate].
    destruct (str_contains s t); discriminate.
  - simpl. destruct (existsb _ items); discriminate.
  - destruct (Werkzeug.get "input" args) as [s|]; simpl; [|discriminate].
    destruct (d !! s) as [record|] eqn:Hs; simpl; rewrite ?Hs; simpl;
      [|discriminate].
    rewrite getitem_label.
    destruct record as [| | | | | |fields]; simpl; try discriminate.
    destruct (fields !! "Label") as [v|] eqn:Hv; [|discriminate].
    destruct (Nat.ltb (depth v) dumps_depth) eqn:Hdepth; [|discriminate].
    intros [= <-]. apply Nat.ltb_lt in Hdepth. exists d, s, fields, v. auto 6.
Qed.

(** Whatever the table and the request, a handler either answers with
    status 200, or with status 404 and the fixed message, or raises
    [KeyError], [TypeError] or [RecursionError]; it never produces
    another status, another 404 body or another exception. *)
Theorem dispatch_outcomes (req : request) (g : globals) :
  match fst (dispatch req g) with
  | Return (b, status) =>
      status = 200 ∨
      (status = 404 ∧
       b = json_response (PDict {[ "message" :=
             PStr "No recommendations for user input" ]}))
  | Raise e => e = KeyError ∨ e = TypeError ∨ e = RecursionError
  end.
Proof.
  destruct req as [args|args]; destruct g as [table]; simpl;
    [rewrite home_live; simpl; auto|].
  rewrite predict_steps. simpl.
  destruct (py_contains (Werkzeug.get "input" args) table) as [[|]|e] eqn:Hin;
    [| auto |].
  - destruct (py_getitem table (Werkzeug.get "input" args)) as [record|e] eqn:Hget.
    + destruct (py_getitem record (Some "Label")) as [label|e] eqn:Hlabel.
      * destruct (Nat.ltb (depth label) dumps_depth); auto.
      * destruct record as [| | | | | |fields]; simpl in Hlabel;
          try (injection Hlabel as <-; auto).
        destruct (fields !! "Label"); [discriminate|]. injection Hlabel as <-. auto.
    + destruct table as [| | | | | |d]; simpl in Hget;
        try (injection Hget as <-; auto).
      destruct (Werkzeug.get "input" args) as [s|]; [|injection Hget as <-; auto].
      destruct (d !! s); [discriminate|]. injection Hget as <-. auto.
  - destruct table as [| | | | | |d]; simpl in Hin;
      try (injection Hin as <-; auto); try discriminate.
    + destruct (Werkzeug.get "input" args); [discriminate|].
      injection Hin as <-. auto.
    + destruct (Werkzeug.get "input" args); discriminate.
Qed.

(** [predict] raises [KeyError] in exactly one situation: the input is a
    key of an object table and the record under it is an object without
    a ['Label'] field.  The subscription of the table itself never
    raises it, since it comes after the membership test. *)
Theorem predict_KeyError_iff_missing_label
    (table : pyval) (args : Werkzeug.MultiDict) :
  fst (dispatch (GET_predict args) (Globals table)) = Raise KeyError
  ↔ ∃ (d : gmap string pyval) (s : string) (fields : gmap string pyval),
      table = PDict d ∧ Werkzeug.get "input" args = Some s ∧
      d !! s = Some (PDict fields) ∧ fields !! "Label" = None.
Proof.
  simpl. rewrite predict_steps. simpl. split.
  - destruct table as [|b'|n|x|t|items|d];
      try (destruct (Werkzeug.get "input" args); simpl; discriminate).
    + destruct (Werkzeug.get "input" args) as [s|]; simpl; [|discriminate].
      destruct (str_contains s t); discriminate.
    + simpl. destruct (existsb _ items); discriminate.
    + destruct (Werkzeug.get "input" args) as [s|]; simpl; [|discriminate].
      destruct (d !! s) as [record|] eqn:Hs; simpl; rewrite ?Hs; simpl;
        [|discriminate].
      rewrite getitem_label.
      destruct record as [| | | | | |fields]; simpl; try discriminate.
      destruct (fields !! "Label") as [v|] eqn:Hv.
      * destruct (Nat.ltb (depth v) dumps_depth); discriminate.
      * intros _. exists d, s, fields. auto.
  - intros (d & s & fields & -> & -> & Hs & Hlabel). simpl.
    rewrite Hs. simpl. rewrite ?Hs. simpl. rewrite Hlabel. reflexivity.
Qed.



(** *** Tables that are not objects *)

Lemma py_eq_key_value (x : pykey) (y : pyval) :
  py_eq x y = true ↔ key_value x = y.
Proof.
  destruct x as [s|], y; simpl; try (split; [discriminate|discriminate]);
    try (split; reflexivity).
  rewrite bool_decide_eq_true. split; congruence.
Qed.

Lemma existsb_py_eq (x : pykey) (items : list pyval) :
  existsb (py_eq x) items = true ↔ key_value x ∈ items.
Proof.
  induction items as [|y items IH]; simpl.
  - rewrite elem_of_nil. split; [discriminate|tauto].
  - rewrite orb_true_iff, elem_of_cons, IH, py_eq_key_value.
    split; intros [?|?]; auto.
Qed.

Lemma append_String (c : ascii) (s r : string) :
  String.append (String c s) r = String c (String.append s r).
Proof. reflexivity. Qed.

Lemma append_empty (r : string) : String.append "" r = r.
Proof. reflexivity. Qed.

Lemma prefix_append (sub s : string) :
  String.prefix sub s = true ↔ ∃ r, s = String.append sub r.
Proof.
  revert s. induction sub as [|c sub IH]; intros s.
  - split; [intros _; exists s; reflexivity|].
    intros _. destruct s; reflexivity.
  - destruct s as [|c' s].
    + split; [discriminate|]. intros [r Hr].
      rewrite append_String in Hr. discriminate.
    + change (String.prefix (String c sub) (String c' s))
        with (if Ascii.ascii_dec c c' then String.prefix sub s else false).
      destruct (Ascii.ascii_dec c c') as [->|Hne].
      * rewrite IH. split; intros [r Hr]; exists r.
        -- rewrite append_String. congruence.
        -- rewrite append_String in Hr. congruence.
      * split; [discriminate|]. intros [r Hr].
        rewrite append_String in Hr. congruence.
Qed.

(** [str_contains] is the substring test. *)
Lemma str_contains_spec (sub s : string) :
  str_contains sub s = true
  ↔ ∃ l r, s = String.append l (String.append sub r).
Proof.
  induction s as [|c s IH].
  - change (str_contains sub "") with (String.prefix sub "" || false).
    rewrite orb_false_r, prefix_append. split.
    + intros [r Hr]. exists "", r. exact Hr.
    + intros (l & r & Hlr). destruct l as [|c l].
      * exists r. exact Hlr.
      * rewrite append_String in Hlr. discriminate.
  - change (str_contains sub (String c s))
      with (String.prefix sub (String c s) || str_contains sub s).
    rewrite orb_true_iff, prefix_append, IH. split.
    + intros [[r Hr]|(l & r & Hlr)].
      * exists "", r. exact Hr.
      * exists (String c l), r. rewrite append_String. congruence.
    + intros (l & r & Hlr). destruct l as [|c' l].
      * left. exists r. exact Hlr.
      * right. exists l, r. rewrite append_String in Hlr. congruence.
Qed.

(** When the data file holds a JSON array, the handler tests the input
    against the elements: an input equal to an element (an omitted input
    equal to a [null] element) passes the test and the subscription of
    the list then raises [TypeError]; any other input gets the 404
    answer.  No request gets a 200. *)
Theorem predict_on_array_table
    (items : list pyval) (args : Werkzeug.MultiDict) :
  (key_value (Werkzeug.get "input" args) ∈ items →
   dispatch (GET_predict args) (Globals (PList items))
   = (Raise TypeError, Globals (PList items)))
  ∧
  (key_value (Werkzeug.get "input" args) ∉ items →
   dispatch (GET_predict args) (Globals (PList items))
   = (Return (json_response (PDict {[ "message" :=
                PStr "No recommendations for user input" ]}), 404),
      Globals (PList items))).
Proof.
  simpl. rewrite predict_steps. simpl. split; intros Hin.
  - apply existsb_py_eq in Hin. rewrite Hin. reflexivity.
  - destruct (existsb _ items) eqn:Hex; [|reflexivity].
    apply existsb_py_eq in Hex. contradiction.
Qed.

(** When the data file holds a JSON string, [in] is the substring test:
    an input that occurs inside the string (the empty input always does)
    raises [TypeError] at the subscription, an input that does not occur
    gets the 404 answer, and a request without [input] raises
    [TypeError] at the test itself. *)
Theorem predict_on_string_table (t : string) (args : Werkzeug.MultiDict) :
  (∀ s, Werkzeug.get "input" args = Some s →
     (∃ l r, t = String.append l (String.append s r)) →
     dispatch (GET_predict args) (Globals (PStr t))
     = (Raise TypeError, Globals (PStr t)))
  ∧
  (∀ s, Werkzeug.get "input" args = Some s →
     ¬ (∃ l r, t = String.append l (String.append s r)) →
     dispatch (GET_predict args) (Globals (PStr t))
     = (Return (json_response (PDict {[ "message" :=
                  PStr "No recommendations for user input" ]}), 404),
        Globals (PStr t)))
  ∧
  (Werkzeug.get "input" args = None →
     dispatch (GET_predict args) (Globals (PStr t))
     = (Raise TypeError, Globals (PStr t))).
Proof.
  simpl. rewrite predict_steps. simpl. split; [|split].
  - intros s -> Hsub. apply str_contains_spec in Hsub. rewrite Hsub. reflexivity.
  - intros s -> Hsub. destruct (str_contains s t) eqn:Hc; [|reflexivity].
    apply str_contains_spec in Hc. contradiction.
  - intros ->. reflexivity.
Qed.

(** When the data file holds a JSON number, boolean or [null], every
    prediction request raises [TypeError], whatever its arguments, while
    the health check keeps answering that the application is live. *)
Theorem predict_on_scalar_table
    (table : pyval) (args : Werkzeug.MultiDict) :
  is_scalar table →
  dispatch (GET_predict args) (Globals table) = (Raise TypeError, Globals table)
  ∧ dispatch (GET_home args) (Globals table)
    = (Return (json_response (PDict {[ "message" := PStr "JobName App is live" ]}),
               200),
       Globals table).
Proof.
  intros Hscalar. split; [|simpl; apply home_live].
  simpl. rewrite predict_steps.
  destruct table; simpl in *; try reflexivity; contradiction.
Qed.

(** *** Requests with several arguments *)

(** Only the first [input] argument counts: a request that repeats
    [input] is answered as if it carried the first value alone, and
    arguments with any other name are ignored. *)
Theorem predict_uses_first_input (g : globals) :
  (∀ s rest,
     dispatch (GET_predict (("input", s) :: rest)) g
     = dispatch (GET_predict [("input", s)]) g)
  ∧
  (∀ name value rest,
     name ≠ "input" →
     dispatch (GET_predict ((name, value) :: rest)) g
     = dispatch (GET_predict rest) g).
Proof.
  destruct g as [table]. split.
  - intros s rest. simpl. rewrite !predict_steps. reflexivity.
  - intros name value rest Hname. simpl. rewrite !predict_steps. simpl.
    rewrite (bool_decide_eq_false_2 _ Hname). reflexivity.
Qed.

(** *** Sequences of requests *)

Lemma zip_map_self {A B} (f : A → B) (l : list A) :
  zip l (map f l) = map (λ x, (x, f x)) l.
Proof. induction l as [|x l IH]; simpl; [reflexivity|]. rewrite IH. reflexivity. Qed.

(** Requests are independent of their order.  In every sequence, the
    request at a given position gets at that position the answer that it
    gets when it is served alone; so serving a rearrangement of a
    sequence pairs every request with the same answer as before, the
    answers are those of the first sequence rearranged in the same way,
    and the table at the end is the same. *)
Theorem answers_follow_the_order_of_requests
    (g : globals) (reqs reqs' : list request) :
  reqs ≡ₚ reqs' →
  (∀ i req, reqs !! i = Some req →
     fst (serve reqs g) !! i = Some (fst (dispatch req g))) ∧
  (∀ j req, reqs' !! j = Some req →
     fst (serve reqs' g) !! j = Some (fst (dispatch req g))) ∧
  zip reqs (fst (serve reqs g)) ≡ₚ zip reqs' (fst (serve reqs' g)) ∧
  fst (serve reqs g) ≡ₚ fst (serve reqs' g) ∧
  snd (serve reqs g) = snd (serve reqs' g).
Proof.
  intros Hperm. rewrite !serve_outcomes, !serve_globals, !zip_map_self.
  split; [|split; [|split; [|split]]].
  - intros i req Hi. rewrite list_lookup_fmap, Hi. reflexivity.
  - intros j req Hj. rewrite list_lookup_fmap, Hj. reflexivity.
  - apply Permutation_map. exact Hperm.
  - apply Permutation_map. exact Hperm.
  - reflexivity.
Qed.

(** A process started from a given data file answers a sequence of
    requests as two processes started from the same file answer its two
    halves; and a process that serves gives exactly one outcome per
    request. *)
Theorem answers_of_split_sequences
    (src : data_source) (reqs1 reqs2 : list request) :
  answers (start src) (reqs1 ++ reqs2)
  = (answers (start src) reqs1 ++ answers (start src) reqs2)%list
  ∧ (∀ g, start src = Serving g →
          length (answers (start src) (reqs1 ++ reqs2))
          = (length reqs1 + length reqs2)%nat).
Proof.
  split.
  - destruct (start src) as [e|g]; simpl; [reflexivity|].
    rewrite !serve_outcomes. apply map_app.
  - intros g ->. simpl. rewrite serve_outcomes, length_map, length_app.
    reflexivity.
Qed.

(** *** The service as a lookup *)


End Main.

(** ** Instances of the properties *)

(** The statements below are evaluated with the limit of the default
    interpreter. *)
#[local] Existing Instance cpython_default.






(** *** The predict endpoint *)



Lemma predict_miss_is_404_witness :
  (∀ s, Werkzeug.get "input" [("input", "")] = Some s → shoes_table !! s = None) ∧
  dispatch (GET_predict [("input", "")]) (Globals (PDict shoes_table)) =
  (Return (json_response (PDict {[ "message" :=
             PStr "No recommendations for user input" ]}), 404),
   Globals (PDict shoes_table)).
Proof.
  assert (H : ∀ s, Werkzeug.get "input" [("input", "")] = Some s →
                   shoes_table !! s = None).
  { intros s Hs. simpl in Hs. injection Hs as <-. reflexivity. }
  split; [exact H|].
  apply (predict_miss_is_404 shoes_table [("input", "")] H).
Defined.





(** *** Start-up *)

(** The start-up does not look at the shape of the document: with a JSON
    object whose record has no ['Label'] field the process does not fail
    fast.  It serves, answers the health check, and the request for the
    stored key ends in a [KeyError]. *)
Lemma start_accepts_ill_shaped_document :
  ¬ well_shaped_source tagged_document ∧
  ¬ failed_fast (start tagged_document) ∧
  answers (start tagged_document)
          [GET_home []; GET_predict [("input", "red shoes")]]
  = [Return (json_response (PDict {[ "message" := PStr "JobName App is live" ]}),
             200);
     Raise KeyError].
Proof.
  split; [|split].
  - intros (v & Hv & d & -> & Hall).
    injection Hv as <-.
    destruct (Hall "red shoes" (PDict {[ "Tag" := PStr "footwear" ]}) eq_refl)
      as [label Hlabel].
    discriminate Hlabel.
  - intros [_ Hnone]. specialize (Hnone [GET_home []]).
    simpl in Hnone. rewrite home_live in Hnone. discriminate Hnone.
  - reflexivity.
Qed.

(** *** Further properties *)

Lemma predict_200_is_a_stored_label_witness :
  fst (dispatch (GET_predict [("input", "red shoes")]) (Globals (PDict shoes_table)))
  = Return (json_response (PDict {[ "labels" :=
              PList [PStr "footwear"; PStr "red"] ]}), 200)
  ∧
  ∃ (d : gmap string pyval) (s : string) (fields : gmap string pyval) (v : pyval),
    PDict shoes_table = PDict d ∧
    Werkzeug.get "input" [("input", "red shoes")] = Some s ∧
    d !! s = Some (PDict fields) ∧ fields !! "Label" = Some v ∧
    json_response (PDict {[ "labels" := PList [PStr "footwear"; PStr "red"] ]})
    = json_response (PDict {[ "labels" := v ]}) ∧
    (depth v < dumps_depth)%nat.
Proof.
  split; [reflexivity|].
  apply (predict_200_is_a_stored_label (PDict shoes_table)
           [("input", "red shoes")]); reflexivity.
Defined.


Lemma predict_on_array_table_witness :
  key_value (Werkzeug.get "input" []) ∈ [PStr "red shoes"; PNone] ∧
  dispatch (GET_predict []) (Globals (PList [PStr "red shoes"; PNone]))
  = (Raise TypeError, Globals (PList [PStr "red shoes"; PNone])) ∧
  (key_value (Werkzeug.get "input" [("input", "blue shoes")])
     ∉ [PStr "red shoes"; PNone]) ∧
  dispatch (GET_predict [("input", "blue shoes")])
           (Globals (PList [PStr "red shoes"; PNone]))
  = (Return (json_response (PDict {[ "message" :=
               PStr "No recommendations for user input" ]}), 404),
     Globals (PList [PStr "red shoes"; PNone])).
Proof.
  assert (Hin : key_value (Werkzeug.get "input" [])
                  ∈ [PStr "red shoes"; PNone]).
  { simpl. apply elem_of_cons. right. apply elem_of_cons. left. reflexivity. }
  assert (Hout : key_value (Werkzeug.get "input" [("input", "blue shoes")])
                   ∉ [PStr "red shoes"; PNone]).
  { simpl. rewrite !not_elem_of_cons, elem_of_nil.
    split; [discriminate|]. split; [discriminate|tauto]. }
  split; [exact Hin|].
  split; [exact (proj1 (predict_on_array_table
                          [PStr "red shoes"; PNone] []) Hin)|].
  split; [exact Hout|].
  exact (proj2 (predict_on_array_table
                  [PStr "red shoes"; PNone] [("input", "blue shoes")]) Hout).
Defined.

Lemma predict_on_string_table_witness :
  (∃ l r, "red shoes" = String.append l (String.append "shoe" r)) ∧
  dispatch (GET_predict [("input", "shoe")]) (Globals (PStr "red shoes"))
  = (Raise TypeError, Globals (PStr "red shoes")) ∧
  ¬ (∃ l r, "red" = String.append l (String.append "blue" r)) ∧
  dispatch (GET_predict [("input", "blue")]) (Globals (PStr "red"))
  = (Return (json_response (PDict {[ "message" :=
               PStr "No recommendations for user input" ]}), 404),
     Globals (PStr "red")) ∧
  dispatch (GET_predict []) (Globals (PStr "red shoes"))
  = (Raise TypeError, Globals (PStr "red shoes")).
Proof.
  assert (Hin : ∃ l r, "red shoes" = String.append l (String.append "shoe" r)).
  { exists "red ", "s". reflexivity. }
  assert (Hout : ¬ (∃ l r, "red" = String.append l (String.append "blue" r))).
  { intros Hsub. apply str_contains_spec in Hsub. discriminate Hsub. }
  split; [exact Hin|].
  split; [exact (proj1 (predict_on_string_table "red shoes" [("input", "shoe")])
                   "shoe" eq_refl Hin)|].
  split; [exact Hout|].
  split; [exact (proj1 (proj2 (predict_on_string_table "red" [("input", "blue")]))
                   "blue" eq_refl Hout)|].
  exact (proj2 (proj2 (predict_on_string_table "red shoes" [])) eq_refl).
Defined.

Lemma predict_on_scalar_table_witness :
  is_scalar (PInt 42) ∧
  dispatch (GET_predict [("input", "red shoes")]) (Globals (PInt 42))
  = (Raise TypeError, Globals (PInt 42)) ∧
  dispatch (GET_home [("input", "red shoes")]) (Globals (PInt 42))
  = (Return (json_response (PDict {[ "message" := PStr "JobName App is live" ]}),
             200),
     Globals (PInt 42)).
Proof.
  split; [exact I|].
  apply (predict_on_scalar_table (PInt 42) [("input", "red shoes")]). exact I.
Defined.

Lemma predict_uses_first_input_witness :
  dispatch (GET_predict [("input", "red shoes"); ("input", "blue shoes")])
           (Globals (PDict shoes_table))
  = dispatch (GET_predict [("input", "red shoes")]) (Globals (PDict shoes_table))
  ∧ "lang" ≠ "input"
  ∧ dispatch (GET_predict [("lang", "en"); ("input", "red shoes")])
             (Globals (PDict shoes_table))
    = dispatch (GET_predict [("input", "red shoes")]) (Globals (PDict shoes_table)).
Proof.
  assert (Hname : "lang" ≠ "input") by discriminate.
  split; [exact (proj1 (predict_uses_first_input (Globals (PDict shoes_table)))
                   "red shoes" [("input", "blue shoes")])|].
  split; [exact Hname|].
  exact (proj2 (predict_uses_first_input (Globals (PDict shoes_table)))
           "lang" "en" [("input", "red shoes")] Hname).
Defined.

Lemma answers_follow_the_order_of_requests_witness :
  let g := Globals (PDict shoes_table) in
  let hit := GET_predict [("input", "red shoes")] in
  let live := GET_home [] in
  [hit; live] ≡ₚ [live; hit] ∧
  [hit; live] !! 0%nat = Some hit ∧
  fst (serve [hit; live] g) !! 0%nat = Some (fst (dispatch hit g)) ∧
  [live; hit] !! 1%nat = Some hit ∧
  fst (serve [live; hit] g) !! 1%nat = Some (fst (dispatch hit g)) ∧
  zip [hit; live] (fst (serve [hit; live] g))
    ≡ₚ zip [live; hit] (fst (serve [live; hit] g)) ∧
  snd (serve [hit; live] g) = snd (serve [live; hit] g).
Proof.
  intros g hit live.
  assert (Hperm : [hit; live] ≡ₚ [live; hit]) by apply perm_swap.
  pose proof (answers_follow_the_order_of_requests g _ _ Hperm)
    as (Hfst & Hsnd & Hzip & _ & Hglobals).
  split; [exact Hperm|]. split; [reflexivity|].
  split; [exact (Hfst 0%nat hit eq_refl)|]. split; [reflexivity|].
  split; [exact (Hsnd 1%nat hit eq_refl)|].
  split; [exact Hzip|exact Hglobals].
Defined.

Lemma answers_of_split_sequences_witness :
  start (Document (PDict shoes_table)) = Serving (Globals (PDict shoes_table)) ∧
  length (answers (start (Document (PDict shoes_table)))
                  ([GET_home []] ++ [GET_predict []; GET_home []]))
  = (length [GET_home []] + length [GET_predict []; GET_home []])%nat.
Proof.
  split; [reflexivity|].
  exact (proj2 (answers_of_split_sequences (Document (PDict shoes_table))
                  [GET_home []] [GET_predict []; GET_home []])
               (Globals (PDict shoes_table)) eq_refl).
Defined.

